(** * Conversation loop of the voice agent front end (app.js)

    A shallow embedding of [app.js]: the session identifier resolution
    [getOrCreateSessionId], the recording/submission logic of
    [startRecording] and its [MediaRecorder] handlers, the stop button and
    the auto-restart listener on the audio player's ['ended'] event.

    The page runs on a single-threaded event loop.  Every browser callback
    (button click, microphone permission settling, recorder events, fetch
    settling, media end, timer expiry, passage of time) is an [event]; the
    synchronous part of the handler it triggers is one [step] of the state.
    Asynchronous operations started by a handler ([getUserMedia], [fetch],
    [setTimeout]) are recorded as pending work that a later event settles;
    the events may come in any order the browser could deliver them. *)

From Stdlib Require Import List String Ascii Bool Arith ZArith NArith Lia.
Import ListNotations.
Open Scope string_scope.
Open Scope list_scope.
Set Warnings "-register-all".

(* ------------------------------------------------------------------ *)
(** ** JavaScript values read from the server's JSON reply *)

(** The values [JSON.parse] can produce, plus [undefined] for a missing
    property.  JSON numbers are modelled by their integer values. *)
Inductive jsval :=
| JUndefined
| JNull
| JBool (b : bool)
| JNum (n : Z)
| JStr (s : string)
| JArray (elems : list jsval)
| JObject (fields : list (string * jsval)).

(** ToBoolean: the truthiness used by [if (a && b)] and [a || b]. *)
Definition truthy (v : jsval) : bool :=
  match v with
  | JUndefined | JNull => false
  | JBool b => b
  | JNum n => negb (Z.eqb n 0)
  | JStr s => negb (String.eqb s "")
  | JArray _ | JObject _ => true
  end.

Fixpoint digits_of (fuel : nat) (n : N) (acc : string) : string :=
  match fuel with
  | O => acc
  | S f =>
      let acc' := String (ascii_of_N (48 + N.modulo n 10)) acc in
      if N.eqb (N.div n 10) 0 then acc' else digits_of f (N.div n 10) acc'
  end.

Definition string_of_N (n : N) : string := digits_of (S (N.size_nat n)) n "".

Definition string_of_Z (z : Z) : string :=
  match z with
  | Z.neg p => ("-" ++ string_of_N (Npos p))%string
  | _ => string_of_N (Z.to_N z)
  end.

Fixpoint join (sep : string) (l : list string) : string :=
  match l with
  | [] => ""
  | [x] => x
  | x :: r => (x ++ sep ++ join sep r)%string
  end.

(** ToString, as used by [new Error(v)], [textContent = v] and
    [src = v]; an array prints its elements joined by commas, with
    [null] and [undefined] elements printed as the empty string. *)
Fixpoint js_to_string (v : jsval) : string :=
  match v with
  | JUndefined => "undefined"
  | JNull => "null"
  | JBool true => "true"
  | JBool false => "false"
  | JNum n => string_of_Z n
  | JStr s => s
  | JArray l =>
      join "," (map (fun e => match e with
                              | JUndefined | JNull => ""
                              | _ => js_to_string e
                              end) l)
  | JObject _ => "[object Object]"
  end.

(** Property read [v.key] on a non-null value; [JSON.parse] keeps the last
    of duplicated keys. *)
Definition get_field (v : jsval) (key : string) : jsval :=
  match v with
  | JObject fs =>
      match find (fun kv => String.eqb (fst kv) key) (rev fs) with
      | Some (_, x) => x
      | None => JUndefined
      end
  | _ => JUndefined
  end.

(* ------------------------------------------------------------------ *)
(** ** Session identifier: [getOrCreateSessionId] *)

Module Session.

(** The part of the window the function touches: the decoded query
    parameters of [window.location.search] (what [URLSearchParams] sees)
    and the session history stack that [history.pushState] extends. *)
Record window := {
  search : list (string * string);
  history : list (list (string * string))
}.

(** [URLSearchParams.get]: the first value with that name, or [null]. *)
Fixpoint params_get (ps : list (string * string)) (k : string) : option string :=
  match ps with
  | [] => None
  | (k', v) :: r => if String.eqb k' k then Some v else params_get r k
  end.

(** [history.pushState(null, '', url)]: the URL becomes [url] and one entry
    is pushed; no document is loaded.  The pushed URL is
    [?session_id=<id>], whose query decodes to the single parameter below
    (a [randomUUID] is hex digits and dashes, which need no escaping). *)
Definition pushState (w : window) (ps : list (string * string)) : window :=
  {| search := ps; history := history w ++ [ps] |}.

(** [getOrCreateSessionId]; [fresh] is what [crypto.randomUUID()] returns
    if it is called. *)
Definition getOrCreateSessionId (w : window) (fresh : string) : string * window :=
  let id := params_get (search w) "session_id" in
  match id with
  | Some v => if String.eqb v "" then
                (fresh, pushState w [("session_id", fresh)])
              else (v, w)
  | None => (fresh, pushState w [("session_id", fresh)])
  end.

End Session.

(* ------------------------------------------------------------------ *)
(** ** The page state *)

Definition bytes := list Byte.byte.

(** A [Blob]: its bytes (the concatenation of its parts) and its type. *)
Record blob := { blob_bytes : bytes; blob_type : string }.

(** A request handed to [fetch]: method, URL and the [FormData] entries
    (field name, blob, file name), in insertion order. *)
Record request := {
  req_method : string;
  req_url : string;
  req_form : list (string * blob * string)
}.

(** The life of one [MediaRecorder]: [RecRecording] is its state
    ["recording"]; [stop()] makes it ["inactive"] at once and queues a last
    ['dataavailable'] and the ['stop'] event ([RecStopQueued]); after its
    ['stop'] event it delivers nothing more ([RecDone]). *)
Inductive rec_state := RecRecording | RecStopQueued | RecDone.

Definition rec_state_eqb (a b : rec_state) : bool :=
  match a, b with
  | RecRecording, RecRecording | RecStopQueued, RecStopQueued
  | RecDone, RecDone => true
  | _, _ => false
  end.

Record state := {
  session_id : string;
  (** [mediaRecorder]: index into [recorders] of the last one created *)
  mediaRecorder : option nat;
  (** every [MediaRecorder] ever created, by creation order *)
  recorders : list rec_state;
  audioChunks : list bytes;
  recordBtn_disabled : bool;
  stopBtn_disabled : bool;
  statusText : string;
  spinner_shown : bool;
  geminiText : string;
  player_src : string;
  player_shown : bool;
  player_playing : bool;
  (** [getUserMedia] calls not yet settled *)
  gum_pending : nat;
  (** [fetch] calls not yet settled *)
  fetch_pending : nat;
  (** every request handed to [fetch], in order *)
  requests : list request;
  (** due times of the [setTimeout] callbacks not yet run *)
  timers : list nat;
  (** current time, in ms *)
  now : nat;
  (** instrumentation: times of the player's ['ended'] events *)
  ended_log : list nat
}.

Definition initial_state (sid : string) (rb_disabled sb_disabled : bool)
  (status gemini : string) : state :=
  {| session_id := sid; mediaRecorder := None; recorders := [];
     audioChunks := []; recordBtn_disabled := rb_disabled;
     stopBtn_disabled := sb_disabled; statusText := status;
     spinner_shown := false; geminiText := gemini; player_src := "";
     player_shown := false; player_playing := false; gum_pending := 0;
     fetch_pending := 0; requests := []; timers := []; now := 0;
     ended_log := [] |}.

(** The page as it is after the script has loaded, the identifier having
    been resolved from the window [w] by [getOrCreateSessionId]. *)
Definition load (w : Session.window) (fresh : string) (rb_disabled sb_disabled : bool)
  (status gemini : string) : state :=
  initial_state (fst (Session.getOrCreateSessionId w fresh))
    rb_disabled sb_disabled status gemini.


(** Field updates: [set_f v s] is [s] with field [f] replaced by [v]. *)
Definition set_mediaRecorder (v : option nat) (s : state) : state :=
  {| session_id := session_id s; mediaRecorder := v;
     recorders := recorders s; audioChunks := audioChunks s;
     recordBtn_disabled := recordBtn_disabled s;
     stopBtn_disabled := stopBtn_disabled s; statusText := statusText s;
     spinner_shown := spinner_shown s; geminiText := geminiText s;
     player_src := player_src s; player_shown := player_shown s;
     player_playing := player_playing s; gum_pending := gum_pending s;
     fetch_pending := fetch_pending s; requests := requests s;
     timers := timers s; now := now s; ended_log := ended_log s |}.

Definition set_recorders (v : list rec_state) (s : state) : state :=
  {| session_id := session_id s; mediaRecorder := mediaRecorder s;
     recorders := v; audioChunks := audioChunks s;
     recordBtn_disabled := recordBtn_disabled s;
     stopBtn_disabled := stopBtn_disabled s; statusText := statusText s;
     spinner_shown := spinner_shown s; geminiText := geminiText s;
     player_src := player_src s; player_shown := player_shown s;
     player_playing := player_playing s; gum_pending := gum_pending s;
     fetch_pending := fetch_pending s; requests := requests s;
     timers := timers s; now := now s; ended_log := ended_log s |}.

Definition set_audioChunks (v : list bytes) (s : state) : state :=
  {| session_id := session_id s; mediaRecorder := mediaRecorder s;
     recorders := recorders s; audioChunks := v;
     recordBtn_disabled := recordBtn_disabled s;
     stopBtn_disabled := stopBtn_disabled s; statusText := statusText s;
     spinner_shown := spinner_shown s; geminiText := geminiText s;
     player_src := player_src s; player_shown := player_shown s;
     player_playing := player_playing s; gum_pending := gum_pending s;
     fetch_pending := fetch_pending s; requests := requests s;
     timers := timers s; now := now s; ended_log := ended_log s |}.

Definition set_recordBtn_disabled (v : bool) (s : state) : state :=
  {| session_id := session_id s; mediaRecorder := mediaRecorder s;
     recorders := recorders s; audioChunks := audioChunks s;
     recordBtn_disabled := v; stopBtn_disabled := stopBtn_disabled s;
     statusText := statusText s; spinner_shown := spinner_shown s;
     geminiText := geminiText s; player_src := player_src s;
     player_shown := player_shown s; player_playing := player_playing s;
     gum_pending := gum_pending s; fetch_pending := fetch_pending s;
     requests := requests s; timers := timers s; now := now s;
     ended_log := ended_log s |}.

Definition set_stopBtn_disabled (v : bool) (s : state) : state :=
  {| session_id := session_id s; mediaRecorder := mediaRecorder s;
     recorders := recorders s; audioChunks := audioChunks s;
     recordBtn_disabled := recordBtn_disabled s; stopBtn_disabled := v;
     statusText := statusText s; spinner_shown := spinner_shown s;
     geminiText := geminiText s; player_src := player_src s;
     player_shown := player_shown s; player_playing := player_playing s;
     gum_pending := gum_pending s; fetch_pending := fetch_pending s;
     requests := requests s; timers := timers s; now := now s;
     ended_log := ended_log s |}.

Definition set_statusText (v : string) (s : state) : state :=
  {| session_id := session_id s; mediaRecorder := mediaRecorder s;
     recorders := recorders s; audioChunks := audioChunks s;
     recordBtn_disabled := recordBtn_disabled s;
     stopBtn_disabled := stopBtn_disabled s; statusText := v;
     spinner_shown := spinner_shown s; geminiText := geminiText s;
     player_src := player_src s; player_shown := player_shown s;
     player_playing := player_playing s; gum_pending := gum_pending s;
     fetch_pending := fetch_pending s; requests := requests s;
     timers := timers s; now := now s; ended_log := ended_log s |}.

Definition set_spinner_shown (v : bool) (s : state) : state :=
  {| session_id := session_id s; mediaRecorder := mediaRecorder s;
     recorders := recorders s; audioChunks := audioChunks s;
     recordBtn_disabled := recordBtn_disabled s;
     stopBtn_disabled := stopBtn_disabled s; statusText := statusText s;
     spinner_shown := v; geminiText := geminiText s;
     player_src := player_src s; player_shown := player_shown s;
     player_playing := player_playing s; gum_pending := gum_pending s;
     fetch_pending := fetch_pending s; requests := requests s;
     timers := timers s; now := now s; ended_log := ended_log s |}.

Definition set_geminiText (v : string) (s : state) : state :=
  {| session_id := session_id s; mediaRecorder := mediaRecorder s;
     recorders := recorders s; audioChunks := audioChunks s;
     recordBtn_disabled := recordBtn_disabled s;
     stopBtn_disabled := stopBtn_disabled s; statusText := statusText s;
     spinner_shown := spinner_shown s; geminiText := v;
     player_src := player_src s; player_shown := player_shown s;
     player_playing := player_playing s; gum_pending := gum_pending s;
     fetch_pending := fetch_pending s; requests := requests s;
     timers := timers s; now := now s; ended_log := ended_log s |}.

Definition set_player_src (v : string) (s : state) : state :=
  {| session_id := session_id s; mediaRecorder := mediaRecorder s;
     recorders := recorders s; audioChunks := audioChunks s;
     recordBtn_disabled := recordBtn_disabled s;
     stopBtn_disabled := stopBtn_disabled s; statusText := statusText s;
     spinner_shown := spinner_shown s; geminiText := geminiText s;
     player_src := v; player_shown := player_shown s;
     player_playing := player_playing s; gum_pending := gum_pending s;
     fetch_pending := fetch_pending s; requests := requests s;
     timers := timers s; now := now s; ended_log := ended_log s |}.

Definition set_player_shown (v : bool) (s : state) : state :=
  {| session_id := session_id s; mediaRecorder := mediaRecorder s;
     recorders := recorders s; audioChunks := audioChunks s;
     recordBtn_disabled := recordBtn_disabled s;
     stopBtn_disabled := stopBtn_disabled s; statusText := statusText s;
     spinner_shown := spinner_shown s; geminiText := geminiText s;
     player_src := player_src s; player_shown := v;
     player_playing := player_playing s; gum_pending := gum_pending s;
     fetch_pending := fetch_pending s; requests := requests s;
     timers := timers s; now := now s; ended_log := ended_log s |}.

Definition set_player_playing (v : bool) (s : state) : state :=
  {| session_id := session_id s; mediaRecorder := mediaRecorder s;
     recorders := recorders s; audioChunks := audioChunks s;
     recordBtn_disabled := recordBtn_disabled s;
     stopBtn_disabled := stopBtn_disabled s; statusText := statusText s;
     spinner_shown := spinner_shown s; geminiText := geminiText s;
     player_src := player_src s; player_shown := player_shown s;
     player_playing := v; gum_pending := gum_pending s;
     fetch_pending := fetch_pending s; requests := requests s;
     timers := timers s; now := now s; ended_log := ended_log s |}.

Definition set_gum_pending (v : nat) (s : state) : state :=
  {| session_id := session_id s; mediaRecorder := mediaRecorder s;
     recorders := recorders s; audioChunks := audioChunks s;
     recordBtn_disabled := recordBtn_disabled s;
     stopBtn_disabled := stopBtn_disabled s; statusText := statusText s;
     spinner_shown := spinner_shown s; geminiText := geminiText s;
     player_src := player_src s; player_shown := player_shown s;
     player_playing := player_playing s; gum_pending := v;
     fetch_pending := fetch_pending s; requests := requests s;
     timers := timers s; now := now s; ended_log := ended_log s |}.

Definition set_fetch_pending (v : nat) (s : state) : state :=
  {| session_id := session_id s; mediaRecorder := mediaRecorder s;
     recorders := recorders s; audioChunks := audioChunks s;
     recordBtn_disabled := recordBtn_disabled s;
     stopBtn_disabled := stopBtn_disabled s; statusText := statusText s;
     spinner_shown := spinner_shown s; geminiText := geminiText s;
     player_src := player_src s; player_shown := player_shown s;
     player_playing := player_playing s; gum_pending := gum_pending s;
     fetch_pending := v; requests := requests s; timers := timers s;
     now := now s; ended_log := ended_log s |}.

Definition set_requests (v : list request) (s : state) : state :=
  {| session_id := session_id s; mediaRecorder := mediaRecorder s;
     recorders := recorders s; audioChunks := audioChunks s;
     recordBtn_disabled := recordBtn_disabled s;
     stopBtn_disabled := stopBtn_disabled s; statusText := statusText s;
     spinner_shown := spinner_shown s; geminiText := geminiText s;
     player_src := player_src s; player_shown := player_shown s;
     player_playing := player_playing s; gum_pending := gum_pending s;
     fetch_pending := fetch_pending s; requests := v; timers := timers s;
     now := now s; ended_log := ended_log s |}.

Definition set_timers (v : list nat) (s : state) : state :=
  {| session_id := session_id s; mediaRecorder := mediaRecorder s;
     recorders := recorders s; audioChunks := audioChunks s;
     recordBtn_disabled := recordBtn_disabled s;
     stopBtn_disabled := stopBtn_disabled s; statusText := statusText s;
     spinner_shown := spinner_shown s; geminiText := geminiText s;
     player_src := player_src s; player_shown := player_shown s;
     player_playing := player_playing s; gum_pending := gum_pending s;
     fetch_pending := fetch_pending s; requests := requests s; timers := v;
     now := now s; ended_log := ended_log s |}.

Definition set_now (v : nat) (s : state) : state :=
  {| session_id := session_id s; mediaRecorder := mediaRecorder s;
     recorders := recorders s; audioChunks := audioChunks s;
     recordBtn_disabled := recordBtn_disabled s;
     stopBtn_disabled := stopBtn_disabled s; statusText := statusText s;
     spinner_shown := spinner_shown s; geminiText := geminiText s;
     player_src := player_src s; player_shown := player_shown s;
     player_playing := player_playing s; gum_pending := gum_pending s;
     fetch_pending := fetch_pending s; requests := requests s;
     timers := timers s; now := v; ended_log := ended_log s |}.

Definition set_ended_log (v : list nat) (s : state) : state :=
  {| session_id := session_id s; mediaRecorder := mediaRecorder s;
     recorders := recorders s; audioChunks := audioChunks s;
     recordBtn_disabled := recordBtn_disabled s;
     stopBtn_disabled := stopBtn_disabled s; statusText := statusText s;
     spinner_shown := spinner_shown s; geminiText := geminiText s;
     player_src := player_src s; player_shown := player_shown s;
     player_playing := player_playing s; gum_pending := gum_pending s;
     fetch_pending := fetch_pending s; requests := requests s;
     timers := timers s; now := now s; ended_log := v |}.

(** [replace_nth l i x]: [l] with its [i]-th element replaced by [x]
    (unchanged out of range). *)
Fixpoint replace_nth {A} (l : list A) (i : nat) (x : A) : list A :=
  match l, i with
  | [], _ => []
  | _ :: r, O => x :: r
  | y :: r, S j => y :: replace_nth r j x
  end.

Fixpoint remove_nth {A} (l : list A) (i : nat) : list A :=
  match l, i with
  | [], _ => []
  | _ :: r, O => r
  | y :: r, S j => y :: remove_nth r j
  end.

(* ------------------------------------------------------------------ *)
(** ** Handlers *)

Definition status_recording := "🎤 Recording...".
Definition status_denied := "❌ Mic access denied. Please allow microphone access.".
Definition status_processing := "Processing your request...".
Definition status_ready := "✅ Response ready! I am listening again...".
Definition status_error_prefix := "❌ Error processing: ".
Definition incomplete_msg :=
  "Incomplete response from server. Missing text or audio URL.".
Definition no_response_yet := "No response yet.".
(** The message of the [TypeError] thrown by [data.gemini_text] when the
    body is the JSON value [null]. *)
Definition null_read_msg :=
  "Cannot read properties of null (reading 'gemini_text')".
Definition backend_base := "http://127.0.0.1:8000/agent/chat/".

(** [startRecording()] up to its first [await]: [getUserMedia] is called. *)
Definition startRecording (s : state) : state :=
  set_gum_pending (S (gum_pending s)) s.

(** The rest of [startRecording] once [getUserMedia] has resolved: a new
    [MediaRecorder] is created, [audioChunks] cleared, the recorder started
    and the page updated.  Setting [src] to [""] reloads the media element,
    which stops any playback in progress. *)
Definition startRecording_granted (s : state) : state :=
  let r := List.length (recorders s) in
  set_player_playing false
  (set_player_src ""
  (set_player_shown false
  (set_geminiText no_response_yet
  (set_statusText status_recording
  (set_stopBtn_disabled false
  (set_recordBtn_disabled true
  (set_audioChunks []
  (set_mediaRecorder (Some r)
  (set_recorders (recorders s ++ [RecRecording]) s))))))))).

(** The [catch] of [startRecording] when [getUserMedia] rejects. *)
Definition startRecording_denied (s : state) : state :=
  set_statusText status_denied s.

(** [stopBtn.onclick]. *)
Definition stopBtn_onclick (s : state) : state :=
  let s' :=
    match mediaRecorder s with
    | Some r =>
        match nth_error (recorders s) r with
        | Some RecRecording => set_recorders (replace_nth (recorders s) r RecStopQueued) s
        | _ => s
        end
    | None => s
    end in
  set_stopBtn_disabled true (set_recordBtn_disabled false s').

(** [mediaRecorder.ondataavailable]. *)
Definition ondataavailable (c : bytes) (s : state) : state :=
  if Nat.ltb 0 (List.length c) then set_audioChunks (audioChunks s ++ [c]) s else s.

(** The request built by [onstop] from the chunks collected so far. *)
Definition turn_request (sid : string) (chunks : list bytes) : request :=
  {| req_method := "POST";
     req_url := (backend_base ++ sid)%string;
     req_form := [("file", {| blob_bytes := List.concat chunks; blob_type := "audio/webm" |},
                   "recording.webm")] |}.

(** [mediaRecorder.onstop] up to its [await fetch(...)]: the blob is built,
    the page shows the spinner and the request is sent. *)
Definition onstop (s : state) : state :=
  set_fetch_pending (S (fetch_pending s))
  (set_requests (requests s ++ [turn_request (session_id s) (audioChunks s)])
  (set_spinner_shown true
  (set_statusText status_processing s))).

(** How one [fetch] settles: it rejects ([NetworkError], with the message of
    its [TypeError]), or it yields a response whose body [res.json()]
    either rejects on ([BodyNotJson], with the [SyntaxError]'s message) or
    parses. *)
Inductive body := BodyNotJson (msg : string) | BodyJson (v : jsval).
Inductive fetch_outcome :=
| NetworkError (msg : string)
| Response (status : Z) (b : body).

(** The [catch] of [onstop]. *)
Definition onstop_fail (msg : string) (s : state) : state :=
  set_statusText (status_error_prefix ++ msg)%string (set_spinner_shown false s).

(** The rest of [onstop] once the fetch has settled. *)
Definition onstop_reply (o : fetch_outcome) (s : state) : state :=
  match o with
  | NetworkError m => onstop_fail m s
  | Response _ (BodyNotJson m) => onstop_fail m s
  | Response _ (BodyJson data) =>
      let s := set_spinner_shown false s in
      match data with
      | JNull | JUndefined => onstop_fail null_read_msg s
      | _ =>
          let gt := get_field data "gemini_text" in
          let au := get_field data "audio_url" in
          if truthy gt && truthy au then
            set_statusText status_ready
            (set_player_playing true
            (set_player_shown true
            (set_player_src (js_to_string au)
            (set_geminiText (js_to_string gt) s))))
          else
            let d := get_field data "detail" in
            onstop_fail (js_to_string (if truthy d then d else JStr incomplete_msg)) s
      end
  end.

(** The ['ended'] listener: a 500 ms timer is armed. *)
Definition on_ended (s : state) : state :=
  set_ended_log (ended_log s ++ [now s])
  (set_timers (timers s ++ [now s + 500])
  (set_player_playing false s)).

(** The timer callback of the ['ended'] listener. *)
Definition on_restart_timer (s : state) : state :=
  if negb (recordBtn_disabled s) then startRecording s else s.

(* ------------------------------------------------------------------ *)
(** ** Events and steps *)

Inductive event :=
| ClickRecord                         (* a click on the enabled record button *)
| ClickStop                           (* a click on the enabled stop button *)
| MicGrant                            (* a pending getUserMedia resolves *)
| MicDeny                             (* a pending getUserMedia rejects *)
| Data (r : nat) (c : bytes)          (* 'dataavailable' of recorder r *)
| RecorderStop (r : nat)              (* 'stop' of recorder r *)
| FetchSettle (o : fetch_outcome)     (* a pending fetch settles *)
| Ended                               (* the playing audio reaches its end *)
| Advance (d : nat)                   (* d ms pass *)
| TimerFire (i : nat).                (* the i-th pending timer runs *)

(** One event, when the browser can deliver it in state [s].  A disabled
    button receives no clicks. *)
Definition step (s : state) (e : event) : option state :=
  match e with
  | ClickRecord =>
      if recordBtn_disabled s then None else Some (startRecording s)
  | ClickStop =>
      if stopBtn_disabled s then None else Some (stopBtn_onclick s)
  | MicGrant =>
      match gum_pending s with
      | O => None
      | S n => Some (startRecording_granted (set_gum_pending n s))
      end
  | MicDeny =>
      match gum_pending s with
      | O => None
      | S n => Some (startRecording_denied (set_gum_pending n s))
      end
  | Data r c =>
      match nth_error (recorders s) r with
      | Some RecRecording | Some RecStopQueued => Some (ondataavailable c s)
      | _ => None
      end
  | RecorderStop r =>
      match nth_error (recorders s) r with
      | Some RecStopQueued =>
          Some (onstop (set_recorders (replace_nth (recorders s) r RecDone) s))
      | _ => None
      end
  | FetchSettle o =>
      match fetch_pending s with
      | O => None
      | S n => Some (onstop_reply o (set_fetch_pending n s))
      end
  | Ended => if player_playing s then Some (on_ended s) else None
  | Advance d => Some (set_now (now s + d) s)
  | TimerFire i =>
      match nth_error (timers s) i with
      | Some due =>
          if Nat.leb due (now s)
          then Some (on_restart_timer (set_timers (remove_nth (timers s) i) s))
          else None
      | None => None
      end
  end.

(** A sequence of events, all deliverable in turn. *)
Fixpoint run (s : state) (es : list event) : option state :=
  match es with
  | [] => Some s
  | e :: r => match step s e with Some s' => run s' r | None => None end
  end.

(* ------------------------------------------------------------------ *)
(** ** A sample session *)

Definition page0 : state := initial_state "S1" false true "" no_response_yet.

Definition reply_ok (t u : string) : fetch_outcome :=
  Response 200 (BodyJson (JObject [("gemini_text", JStr t); ("audio_url", JStr u)])).

(** The spec's end-to-end scenario: two chunks of 10 and 20 bytes, one
    request carrying 30 bytes, the reply shown and played, and after the
    end of playback and 500 ms a new capture. *)
Definition scenario : list event :=
  [ClickRecord; MicGrant; ClickStop; Data 0 (repeat Byte.x00 10);
   Data 0 (repeat Byte.x01 20); RecorderStop 0; FetchSettle (reply_ok "hi" "u1");
   Ended; Advance 499].

Example scenario_runs :
  match run page0 scenario with
  | Some s =>
      List.length (requests s) = 1
      /\ map (fun r => map (fun f => List.length (blob_bytes (snd (fst f)))) (req_form r))
             (requests s) = [[30]]
      /\ geminiText s = "hi" /\ player_src s = "u1"
      /\ step s (TimerFire 0) = None
      /\ match run s [Advance 1; TimerFire 0; MicGrant] with
         | Some s' => mediaRecorder s' = Some 1
                      /\ nth_error (recorders s') 1 = Some RecRecording
         | None => False
         end
  | None => False
  end.
Proof. vm_compute. repeat split; reflexivity. Qed.

(* ------------------------------------------------------------------ *)
(** ** Lemmas on the step function *)

Lemma run_app (s : state) (es1 es2 : list event) :
  run s (es1 ++ es2) = match run s es1 with Some s' => run s' es2 | None => None end.
Proof.
  revert s; induction es1 as [|e es1 IH]; intros s; simpl; [reflexivity|].
  destruct (step s e); [apply IH | reflexivity].
Qed.

(** Every pending timer was armed by an ['ended'] event, 500 ms after it. *)
Definition timers_armed (s : state) : Prop :=
  Forall (fun due => exists t, In t (ended_log s) /\ due = t + 500) (timers s).


Lemma timers_armed_weaken (s : state) (ts : list nat) (log : list nat) :
  timers_armed s -> incl (ended_log s) log -> incl ts (timers s) ->
  Forall (fun due => exists t, In t log /\ due = t + 500) ts.
Proof.
  unfold timers_armed. intros H Hl Ht.
  apply Forall_forall. intros x Hx.
  apply Ht in Hx. rewrite Forall_forall in H.
  destruct (H x Hx) as [t [Ht1 Ht2]]. exists t. auto.
Qed.



(** The state after running [es] from [s] ([s] itself if some event of [es]
    cannot be delivered); used to name concrete states. *)
Definition run_or (s : state) (es : list event) : state :=
  match run s es with Some s' => s' | None => s end.



(* ------------------------------------------------------------------ *)
(** ** Auto-restart after playback *)



(* ------------------------------------------------------------------ *)
(** ** Start requests and overlapping turns *)

(** C2 (as amended): while the record button is disabled a click on it is
    not delivered and the restart timer only retires itself, so no new
    [getUserMedia] call starts; the stop button, however, enables the
    record button again without waiting for the pending request. *)
Theorem start_ignored_while_record_disabled (s : state) :
  recordBtn_disabled s = true ->
  step s ClickRecord = None
  /\ (forall i s', step s (TimerFire i) = Some s' ->
        s' = set_timers (remove_nth (timers s) i) s
        /\ gum_pending s' = gum_pending s)
  /\ (stopBtn_disabled s = false ->
        step s ClickStop = Some (stopBtn_onclick s)
        /\ recordBtn_disabled (stopBtn_onclick s) = false
        /\ fetch_pending (stopBtn_onclick s) = fetch_pending s).
Proof.
  intros Hd. split; [|split].
  - simpl. rewrite Hd. reflexivity.
  - intros i s' Hs. simpl in Hs.
    destruct (nth_error (timers s) i) as [due|]; [|discriminate].
    destruct (Nat.leb due (now s)); [|discriminate].
    injection Hs as <-. unfold on_restart_timer. simpl. rewrite Hd.
    split; reflexivity.
  - intros Hsb. simpl. rewrite Hsb. split; [reflexivity|].
    unfold stopBtn_onclick.
    destruct (mediaRecorder s) as [r|]; [destruct (nth_error (recorders s) r) as [[]|]|];
      split; reflexivity.
Qed.

Definition recording_page : state := run_or page0 [ClickRecord; MicGrant].

Lemma start_ignored_while_record_disabled_witness :
  recordBtn_disabled recording_page = true
  /\ step recording_page ClickRecord = None.
Proof.
  assert (H : recordBtn_disabled recording_page = true) by (vm_compute; reflexivity).
  split; [exact H|].
  exact (proj1 (start_ignored_while_record_disabled recording_page H)).
Defined.

Definition two_turns : list event :=
  [ClickRecord; MicGrant; ClickStop; RecorderStop 0;
   ClickRecord; MicGrant; ClickStop; RecorderStop 1].

(** C2 fails as stated: after a stop the user starts a second capture while
    the first turn's request is still outstanding, and stopping it sends a
    second request, so two remote calls are pending at once. *)
Lemma two_remote_calls_outstanding :
  run page0 (firstn 6 two_turns) = Some (run_or page0 (firstn 6 two_turns))
  /\ fetch_pending (run_or page0 (firstn 6 two_turns)) = 1
  /\ nth_error (recorders (run_or page0 (firstn 6 two_turns))) 1 = Some RecRecording
  /\ run page0 two_turns = Some (run_or page0 two_turns)
  /\ fetch_pending (run_or page0 two_turns) = 2
  /\ List.length (requests (run_or page0 two_turns)) = 2.
Proof. vm_compute. repeat split; reflexivity. Qed.

(* ------------------------------------------------------------------ *)
(** ** The reply to a submitted turn *)

(** The failure path of [onstop] was taken from [s] to [s']: the status shows
    an error message and the reply text and the player are untouched. *)
Definition failed (s s' : state) : Prop :=
  exists msg, statusText s' = (status_error_prefix ++ msg)%string
    /\ geminiText s' = geminiText s /\ player_src s' = player_src s
    /\ player_shown s' = player_shown s /\ player_playing s' = player_playing s.

Lemma ready_not_error (m : string) : status_ready <> (status_error_prefix ++ m)%string.
Proof. unfold status_ready, status_error_prefix. simpl. discriminate. Qed.


Lemma reply_object_cases (s : state) (st : Z) (data : jsval) :
  data <> JNull -> data <> JUndefined ->
  onstop_reply (Response st (BodyJson data)) s =
  (let s1 := set_spinner_shown false s in
   let gt := get_field data "gemini_text" in
   let au := get_field data "audio_url" in
   if truthy gt && truthy au then
     set_statusText status_ready
     (set_player_playing true
     (set_player_shown true
     (set_player_src (js_to_string au)
     (set_geminiText (js_to_string gt) s1))))
   else
     let d := get_field data "detail" in
     onstop_fail (js_to_string (if truthy d then d else JStr incomplete_msg)) s1).
Proof. intros H1 H2. destruct data; try contradiction; reflexivity. Qed.




(** C4: a settled request whose body has non-empty string fields
    [gemini_text] and [audio_url] shows the text, sets the player's source
    to the URL and starts playback, whatever the HTTP status. *)
Theorem valid_reply_shown_and_played (s : state) (st : Z)
  (fs : list (string * jsval)) (t u : string) :
  0 < fetch_pending s ->
  get_field (JObject fs) "gemini_text" = JStr t ->
  get_field (JObject fs) "audio_url" = JStr u ->
  t <> "" -> u <> "" ->
  exists s', step s (FetchSettle (Response st (BodyJson (JObject fs)))) = Some s'
    /\ geminiText s' = t /\ player_src s' = u
    /\ player_shown s' = true /\ player_playing s' = true
    /\ statusText s' = status_ready.
Proof.
  intros Hp Hg Ha Ht Hu. simpl.
  destruct (fetch_pending s) as [|n]; [inversion Hp|].
  eexists. split; [reflexivity|].
  simpl get_field in Hg, Ha. simpl. rewrite Hg, Ha. simpl.
  apply String.eqb_neq in Ht, Hu. rewrite Ht, Hu. simpl.
  repeat split.
Qed.

Lemma valid_reply_shown_and_played_witness :
  exists s', step (run_or page0 [ClickRecord; MicGrant; ClickStop; RecorderStop 0])
               (FetchSettle (reply_ok "hi" "u1")) = Some s'
    /\ geminiText s' = "hi" /\ player_src s' = "u1"
    /\ player_shown s' = true /\ player_playing s' = true
    /\ statusText s' = status_ready.
Proof.
  apply (valid_reply_shown_and_played _ 200
           [("gemini_text", JStr "hi"); ("audio_url", JStr "u1")] "hi" "u1");
    [vm_compute; auto | reflexivity | reflexivity | discriminate | discriminate].
Defined.

(** C9 (as amended): an empty-string [gemini_text] or [audio_url] takes the
    failure path; the success path needs both fields truthy, so a string
    field shown or played on success is non-empty. *)
Theorem empty_field_takes_failure_path (s : state) (st : Z) (data : jsval) :
  data <> JNull -> data <> JUndefined ->
  (get_field data "gemini_text" = JStr "" \/ get_field data "audio_url" = JStr "" ->
   failed s (onstop_reply (Response st (BodyJson data)) s))
  /\ (statusText (onstop_reply (Response st (BodyJson data)) s) = status_ready ->
      truthy (get_field data "gemini_text") = true
      /\ truthy (get_field data "audio_url") = true
      /\ geminiText (onstop_reply (Response st (BodyJson data)) s)
         = js_to_string (get_field data "gemini_text")
      /\ player_src (onstop_reply (Response st (BodyJson data)) s)
         = js_to_string (get_field data "audio_url")
      /\ (forall t, get_field data "gemini_text" = JStr t -> t <> "")
      /\ (forall u, get_field data "audio_url" = JStr u -> u <> "")).
Proof.
  intros H1 H2. rewrite (reply_object_cases s st data H1 H2). cbv zeta.
  split.
  - intros He.
    assert (Hf : truthy (get_field data "gemini_text") && truthy (get_field data "audio_url")
                 = false).
    { destruct He as [E|E]; rewrite E; simpl; [reflexivity|].
      apply andb_false_r. }
    rewrite Hf. eexists. repeat split.
  - destruct (truthy (get_field data "gemini_text")) eqn:Eg,
             (truthy (get_field data "audio_url")) eqn:Ea; simpl;
      try (intros Hm; exfalso; eapply ready_not_error; symmetry; exact Hm).
    intros _. repeat split.
    + intros t Ht. rewrite Ht in Eg. simpl in Eg. intros ->. discriminate.
    + intros u Hu. rewrite Hu in Ea. simpl in Ea. intros ->. discriminate.
Qed.

Lemma empty_field_takes_failure_path_witness :
  failed page0 (onstop_reply (Response 200 (BodyJson (JObject
    [("gemini_text", JStr ""); ("audio_url", JStr "u1")]))) page0).
Proof.
  apply (proj1 (empty_field_takes_failure_path page0 200
    (JObject [("gemini_text", JStr ""); ("audio_url", JStr "u1")])
    ltac:(discriminate) ltac:(discriminate))).
  left. reflexivity.
Defined.

(** C9 fails as stated: a [gemini_text] that is an empty JSON array is
    truthy, takes the success path and is displayed as the empty text. *)
Lemma empty_array_text_shown_empty :
  statusText (onstop_reply (Response 200 (BodyJson (JObject
      [("gemini_text", JArray []); ("audio_url", JStr "u1")]))) page0) = status_ready
  /\ geminiText (onstop_reply (Response 200 (BodyJson (JObject
      [("gemini_text", JArray []); ("audio_url", JStr "u1")]))) page0) = "".
Proof. split; reflexivity. Qed.

(* ------------------------------------------------------------------ *)
(** ** Refused microphone *)

Lemma step_MicDeny (s s' : state) :
  step s MicDeny = Some s' ->
  0 < gum_pending s
  /\ s' = set_statusText status_denied (set_gum_pending (pred (gum_pending s)) s).
Proof.
  simpl. destruct (gum_pending s) as [|n]; [discriminate|].
  intros H. injection H as <-. split; [lia | reflexivity].
Qed.

(** C5 (as amended): a refused [getUserMedia] sends no request, arms no
    timer, starts no new [getUserMedia] and no recorder, shows the denial
    and leaves the record button as it was. *)
Theorem mic_denied_no_request_no_retry (s s' : state) :
  step s MicDeny = Some s' ->
  requests s' = requests s /\ fetch_pending s' = fetch_pending s
  /\ timers s' = timers s /\ gum_pending s' = pred (gum_pending s)
  /\ recorders s' = recorders s /\ mediaRecorder s' = mediaRecorder s
  /\ recordBtn_disabled s' = recordBtn_disabled s
  /\ statusText s' = status_denied.
Proof.
  intros H. destruct (step_MicDeny s s' H) as [_ ->]. repeat split.
Qed.

Definition denied_during_turn : list event :=
  [ClickRecord; MicGrant; ClickStop; RecorderStop 0; ClickRecord; MicDeny].

Lemma mic_denied_no_request_no_retry_witness :
  requests (run_or page0 denied_during_turn)
  = requests (run_or page0 (firstn 5 denied_during_turn))
  /\ statusText (run_or page0 denied_during_turn) = status_denied.
Proof.
  destruct (mic_denied_no_request_no_retry (run_or page0 (firstn 5 denied_during_turn))
              (run_or page0 denied_during_turn) ltac:(vm_compute; reflexivity))
    as [Hr [_ [_ [_ [_ [_ [_ Hs]]]]]]].
  split; [exact Hr | exact Hs].
Defined.

(** C5 fails as stated: the microphone is refused while the previous turn's
    request is outstanding; its reply then plays, and at its end the
    restart timer starts a new capture with no click on the record button. *)
Lemma capture_after_denial_without_click :
  let after := [FetchSettle (reply_ok "hi" "u1"); Ended; Advance 500; TimerFire 0; MicGrant] in
  run page0 denied_during_turn = Some (run_or page0 denied_during_turn)
  /\ statusText (run_or page0 denied_during_turn) = status_denied
  /\ ~ In ClickRecord after
  /\ run (run_or page0 denied_during_turn) after
     = Some (run_or (run_or page0 denied_during_turn) after)
  /\ nth_error (recorders (run_or (run_or page0 denied_during_turn) after)) 1
     = Some RecRecording.
Proof.
  intros after. split; [vm_compute; reflexivity|].
  split; [vm_compute; reflexivity|].
  split; [simpl; intuition discriminate|].
  split; vm_compute; reflexivity.
Qed.

(** C10: a refused [getUserMedia] changes the status text and nothing else
    of the page: chunks, buttons, reply text and player are as before. *)
Theorem mic_denied_only_status_changes (s s' : state) :
  step s MicDeny = Some s' ->
  s' = set_statusText status_denied (set_gum_pending (pred (gum_pending s)) s)
  /\ audioChunks s' = audioChunks s
  /\ recordBtn_disabled s' = recordBtn_disabled s
  /\ stopBtn_disabled s' = stopBtn_disabled s
  /\ geminiText s' = geminiText s
  /\ player_src s' = player_src s
  /\ player_shown s' = player_shown s
  /\ player_playing s' = player_playing s
  /\ spinner_shown s' = spinner_shown s
  /\ statusText s' = status_denied.
Proof.
  intros H. destruct (step_MicDeny s s' H) as [_ ->]. repeat split.
Qed.

Lemma mic_denied_only_status_changes_witness :
  geminiText (run_or page0 [ClickRecord; MicDeny]) = geminiText page0
  /\ statusText (run_or page0 [ClickRecord; MicDeny]) = status_denied.
Proof.
  destruct (mic_denied_only_status_changes (run_or page0 [ClickRecord])
              (run_or page0 [ClickRecord; MicDeny]) ltac:(vm_compute; reflexivity))
    as [_ [_ [_ [_ [Hg [_ [_ [_ [_ Hs]]]]]]]]].
  split; [exact Hg | exact Hs].
Defined.

(* ------------------------------------------------------------------ *)
(** ** Session identifier *)

(** C6 (as amended): a non-empty [session_id] parameter is returned and the
    window is left as it is, however often the function runs; when the
    parameter is absent or empty, the generated identifier is returned, the
    query becomes [?session_id=<id>] through exactly one pushed history
    entry, and resolving again on the updated window returns that same
    identifier without further change. *)
Theorem session_id_resolution (w : Session.window) (fresh fresh' : string) :
  (forall v, Session.params_get (Session.search w) "session_id" = Some v -> v <> "" ->
     Session.getOrCreateSessionId w fresh = (v, w)
     /\ Session.getOrCreateSessionId w fresh' = (v, w))
  /\ (Session.params_get (Session.search w) "session_id" = None
      \/ Session.params_get (Session.search w) "session_id" = Some "" ->
      fresh <> "" ->
      fst (Session.getOrCreateSessionId w fresh) = fresh
      /\ Session.search (snd (Session.getOrCreateSessionId w fresh)) = [("session_id", fresh)]
      /\ Session.history (snd (Session.getOrCreateSessionId w fresh))
         = Session.history w ++ [[("session_id", fresh)]]
      /\ Session.getOrCreateSessionId (snd (Session.getOrCreateSessionId w fresh)) fresh'
         = (fresh, snd (Session.getOrCreateSessionId w fresh))).
Proof.
  unfold Session.getOrCreateSessionId. split.
  - intros v Hv Hne. rewrite Hv. apply String.eqb_neq in Hne. rewrite Hne.
    split; reflexivity.
  - intros Habs Hf. apply String.eqb_neq in Hf.
    destruct Habs as [E|E]; rewrite E; simpl; rewrite Hf; repeat split.
Qed.

Lemma session_id_resolution_witness :
  fst (Session.getOrCreateSessionId {| Session.search := []; Session.history := [] |} "u-1")
  = "u-1"
  /\ Session.getOrCreateSessionId {| Session.search := [("session_id", "abc")];
                                     Session.history := [] |} "u-2"
     = ("abc", {| Session.search := [("session_id", "abc")]; Session.history := [] |}).
Proof.
  pose proof (session_id_resolution {| Session.search := []; Session.history := [] |}
                "u-1" "u-2") as [_ H1].
  pose proof (session_id_resolution {| Session.search := [("session_id", "abc")];
                                       Session.history := [] |} "u-2" "u-3") as [H2 _].
  split.
  - apply (H1 (or_introl eq_refl) ltac:(discriminate)).
  - apply (H2 "abc" eq_refl ltac:(discriminate)).
Defined.

(** C6 fails as stated: a location carrying the parameter with an empty
    value has it overwritten by the generated identifier. *)
Lemma empty_session_id_overwritten :
  Session.getOrCreateSessionId {| Session.search := [("session_id", "")];
                                  Session.history := [] |} "u-1"
  = ("u-1", {| Session.search := [("session_id", "u-1")];
               Session.history := [[("session_id", "u-1")]] |}).
Proof. reflexivity. Qed.

(* ------------------------------------------------------------------ *)
(** ** Collected chunks and the submitted request *)

Definition nonempty_chunk (c : bytes) : bool := Nat.ltb 0 (List.length c).

Lemma set_audioChunks_same (s : state) : set_audioChunks (audioChunks s) s = s.
Proof. destruct s; reflexivity. Qed.

Lemma set_audioChunks_twice (a b : list bytes) (s : state) :
  set_audioChunks a (set_audioChunks b s) = set_audioChunks a s.
Proof. destruct s; reflexivity. Qed.

Lemma run_data_events (r : nat) (cs : list bytes) (s : state) :
  nth_error (recorders s) r = Some RecStopQueued ->
  run s (map (Data r) cs) = Some (set_audioChunks (audioChunks s ++ filter nonempty_chunk cs) s).
Proof.
  revert s; induction cs as [|c cs IH]; intros s Hr; simpl.
  - rewrite app_nil_r, set_audioChunks_same. reflexivity.
  - rewrite Hr. unfold ondataavailable.
    change (Nat.ltb 0 (List.length c)) with (nonempty_chunk c).
    destruct (nonempty_chunk c) eqn:Ec.
    + rewrite IH by exact Hr. simpl.
      rewrite set_audioChunks_twice, <- app_assoc. reflexivity.
    + rewrite IH by exact Hr. reflexivity.
Qed.

(** C7: the chunks the recorder delivers are collected without the
    zero-length ones, and its ['stop'] event sends the collected chunks,
    however few (possibly none). *)
Theorem zero_chunks_dropped_recording_forwarded (s : state) (r : nat) (cs : list bytes) :
  nth_error (recorders s) r = Some RecStopQueued ->
  exists s', run s (map (Data r) cs ++ [RecorderStop r]) = Some s'
    /\ audioChunks s' = audioChunks s ++ filter nonempty_chunk cs
    /\ requests s' = requests s
         ++ [turn_request (session_id s) (audioChunks s ++ filter nonempty_chunk cs)]
    /\ fetch_pending s' = S (fetch_pending s).
Proof.
  intros Hr. rewrite run_app, run_data_events by exact Hr. simpl.
  rewrite Hr. eexists. split; [reflexivity|]. repeat split.
Qed.

Lemma zero_chunks_dropped_recording_forwarded_witness :
  exists s', run (run_or page0 [ClickRecord; MicGrant; ClickStop])
               (map (Data 0) [[]] ++ [RecorderStop 0]) = Some s'
    /\ audioChunks s' = []
    /\ requests s' = [turn_request "S1" []]
    /\ fetch_pending s' = 1.
Proof.
  destruct (zero_chunks_dropped_recording_forwarded
              (run_or page0 [ClickRecord; MicGrant; ClickStop]) 0 [[]]
              ltac:(vm_compute; reflexivity)) as [s' [H1 [H2 [H3 H4]]]].
  exists s'. split; [exact H1|]. split; [exact H2|]. split; [exact H3 | exact H4].
Defined.

Lemma onstop_reply_frame (o : fetch_outcome) (s : state) :
  requests (onstop_reply o s) = requests s
  /\ session_id (onstop_reply o s) = session_id s.
Proof.
  destruct o as [m|st [m|data]]; [split; reflexivity..|].
  destruct data; simpl; try (split; reflexivity);
    repeat match goal with |- context [if ?b then _ else _] => destruct b end;
    split; reflexivity.
Qed.

(** C8: only the ['stop'] event of a recorder sends a request, exactly one:
    a [POST] to [http://127.0.0.1:8000/agent/chat/<session_id>] whose form
    has the single field [file], a blob of type [audio/webm] named
    [recording.webm]; no other event sends one (in particular a settling
    request is not retried), and the session identifier never changes. *)
Theorem one_post_per_stop (s s' : state) (e : event) :
  step s e = Some s' ->
  session_id s' = session_id s
  /\ match e with
     | RecorderStop _ =>
         exists req, requests s' = requests s ++ [req]
           /\ req_method req = "POST"
           /\ req_url req = ("http://127.0.0.1:8000/agent/chat/" ++ session_id s)%string
           /\ req_form req = [("file", {| blob_bytes := List.concat (audioChunks s);
                                          blob_type := "audio/webm" |}, "recording.webm")]
     | _ => requests s' = requests s
     end.
Proof.
  intros Hs. destruct e; simpl in Hs.
  - destruct (recordBtn_disabled s); inversion Hs; subst; split; reflexivity.
  - destruct (stopBtn_disabled s); inversion Hs; subst.
    unfold stopBtn_onclick.
    destruct (mediaRecorder s) as [r|]; [destruct (nth_error (recorders s) r) as [[]|]|];
      split; reflexivity.
  - destruct (gum_pending s); inversion Hs; subst; split; reflexivity.
  - destruct (gum_pending s); inversion Hs; subst; split; reflexivity.
  - destruct (nth_error (recorders s) r) as [[]|]; inversion Hs; subst;
      unfold ondataavailable; destruct (Nat.ltb 0 (List.length c)); split; reflexivity.
  - destruct (nth_error (recorders s) r) as [[]|]; inversion Hs; subst.
    split; [reflexivity|]. eexists. split; [reflexivity|]. repeat split.
  - destruct (fetch_pending s); inversion Hs; subst.
    destruct (onstop_reply_frame o (set_fetch_pending n s)) as [H1 H2].
    rewrite H1, H2. split; reflexivity.
  - destruct (player_playing s); inversion Hs; subst; split; reflexivity.
  - inversion Hs; subst; split; reflexivity.
  - destruct (nth_error (timers s) i); [|discriminate].
    destruct (Nat.leb n (now s)); inversion Hs; subst.
    unfold on_restart_timer; simpl; destruct (recordBtn_disabled s); split; reflexivity.
Qed.

Lemma one_post_per_stop_witness :
  session_id (run_or page0 [ClickRecord; MicGrant; ClickStop; RecorderStop 0]) = "S1"
  /\ List.length (requests (run_or page0 [ClickRecord; MicGrant; ClickStop; RecorderStop 0]))
     = 1.
Proof.
  destruct (one_post_per_stop (run_or page0 [ClickRecord; MicGrant; ClickStop])
              (run_or page0 [ClickRecord; MicGrant; ClickStop; RecorderStop 0])
              (RecorderStop 0) ltac:(vm_compute; reflexivity)) as [Hsid [req [Hr _]]].
  split.
  - exact Hsid.
  - rewrite Hr. reflexivity.
Defined.

(* ------------------------------------------------------------------ *)
(** ** Invariants of the page *)

(** Splits [step s e = Some s'] into the handler runs it stands for. *)
Ltac destruct_step Hs :=
  simpl in Hs;
  repeat match type of Hs with
         | context [match ?x with _ => _ end] => destruct x eqn:?
         end;
  try discriminate; injection Hs as <-.

(** Unfolds the handlers in the goal and splits on their branches. *)
Ltac split_handlers :=
  unfold stopBtn_onclick, on_restart_timer, ondataavailable, onstop, on_ended,
    startRecording, startRecording_granted, startRecording_denied,
    onstop_reply, onstop_fail;
  simpl;
  repeat (match goal with
          | |- context [match ?x with _ => _ end] => destruct x eqn:?
          end; simpl).

(** A reachable page: the loaded page followed by deliverable events. *)
Inductive reachable : state -> Prop :=
| reachable_init sid rb sb st g : reachable (initial_state sid rb sb st g)
| reachable_step s e s' : reachable s -> step s e = Some s' -> reachable s'.

Lemma run_reachable (s s' : state) (es : list event) :
  reachable s -> run s es = Some s' -> reachable s'.
Proof.
  revert s; induction es as [|e es IH]; intros s H Hr; simpl in Hr.
  - injection Hr as <-. exact H.
  - destruct (step s e) as [s1|] eqn:E; [|discriminate].
    exact (IH s1 (reachable_step s e s1 H E) Hr).
Qed.

Definition buttons_opposite (s : state) : Prop :=
  recordBtn_disabled s = negb (stopBtn_disabled s).

Lemma buttons_opposite_step (s s' : state) (e : event) :
  buttons_opposite s -> step s e = Some s' -> buttons_opposite s'.
Proof.
  unfold buttons_opposite. intros H Hs. destruct e; destruct_step Hs;
    split_handlers; first [reflexivity | exact H | congruence].
Qed.

Lemma reachable_ind_inv (P : state -> Prop) :
  (forall sid rb sb st g, P (initial_state sid rb sb st g)) ->
  (forall s e s', P s -> step s e = Some s' -> P s') ->
  forall s, reachable s -> P s.
Proof. intros Hi Hs s H. induction H; eauto. Qed.

Lemma length_replace_nth {A} (l : list A) (i : nat) (x : A) :
  List.length (replace_nth l i x) = List.length l.
Proof. revert i; induction l; intros [|i]; simpl; auto. Qed.

Lemma length_remove_nth_le {A} (l : list A) (i : nat) :
  List.length (remove_nth l i) <= List.length l.
Proof. revert i; induction l; intros [|i]; simpl; auto; specialize (IHl i); lia. Qed.

(** The buttons start in opposite states on load. *)
Theorem buttons_always_opposite (sid : string) (sb : bool) (st g : string)
  (es : list event) (s : state) :
  run (initial_state sid (negb sb) sb st g) es = Some s ->
  recordBtn_disabled s = negb (stopBtn_disabled s).
Proof.
  revert s.
  assert (Hgen : forall s0 s, buttons_opposite s0 -> run s0 es = Some s -> buttons_opposite s).
  { induction es as [|e es IH]; intros s0 s H Hr; simpl in Hr.
    - injection Hr as <-. exact H.
    - destruct (step s0 e) as [s1|] eqn:E; [|discriminate].
      exact (IH s1 s (buttons_opposite_step s0 s1 e H E) Hr). }
  intros s Hr. exact (Hgen _ s (eq_refl : buttons_opposite (initial_state sid (negb sb) sb st g)) Hr).
Qed.

Lemma buttons_always_opposite_witness :
  recordBtn_disabled (run_or page0 two_turns) = negb (stopBtn_disabled (run_or page0 two_turns)).
Proof.
  apply (buttons_always_opposite "S1" true "" no_response_yet two_turns).
  vm_compute. reflexivity.
Defined.

Lemma step_recorders_shape (s s' : state) (e : event) :
  step s e = Some s' ->
  (mediaRecorder s' = mediaRecorder s
   /\ List.length (recorders s') = List.length (recorders s))
  \/ (mediaRecorder s' = Some (List.length (recorders s))
      /\ List.length (recorders s') = S (List.length (recorders s))).
Proof.
  intros Hs. destruct e; destruct_step Hs; split_handlers;
    first [left; split; [congruence | rewrite ?length_replace_nth; reflexivity]
          | right; split; [reflexivity | rewrite length_app; simpl; lia]].
Qed.

(** [mediaRecorder] is always the recorder created last: none before the
    first capture, afterwards the newest [MediaRecorder]. *)
Definition current_is_last (s : state) : Prop :=
  match mediaRecorder s with
  | None => List.length (recorders s) = 0
  | Some r => S r = List.length (recorders s)
  end.

Theorem media_recorder_is_last_created (s : state) :
  reachable s -> current_is_last s.
Proof.
  apply reachable_ind_inv.
  - intros. reflexivity.
  - intros s0 e s' H Hs. unfold current_is_last in *.
    destruct (step_recorders_shape s0 s' e Hs) as [[Hm Hl] | [Hm Hl]];
      rewrite Hm, Hl; [exact H | reflexivity].
Qed.

Lemma media_recorder_is_last_created_witness :
  current_is_last (run_or page0 two_turns).
Proof.
  apply media_recorder_is_last_created.
  apply (run_reachable page0 _ two_turns (reachable_init _ _ _ _ _)).
  vm_compute. reflexivity.
Defined.

(** Each end of playback arms one restart timer and nothing else arms one:
    there are never more pending timers than ['ended'] events so far. *)
Theorem pending_timers_le_ended (s : state) :
  reachable s -> List.length (timers s) <= List.length (ended_log s).
Proof.
  intros Hreach. induction Hreach as [|s0 e s' _ H Hs].
  - simpl. lia.
  -
    destruct e; destruct_step Hs; split_handlers;
      try (match goal with
           | |- context [List.length (remove_nth ?l ?i)] =>
               pose proof (length_remove_nth_le l i)
           end);
      rewrite ?length_app; simpl; lia.
Qed.

Lemma pending_timers_le_ended_witness :
  List.length (timers (run_or page0 scenario))
  <= List.length (ended_log (run_or page0 scenario)).
Proof.
  apply pending_timers_le_ended.
  apply (run_reachable page0 _ scenario (reachable_init _ _ _ _ _)).
  vm_compute. reflexivity.
Defined.

Lemma nth_error_app_two {A} (l : list A) (x y : A) :
  nth_error (l ++ [x; y]) (List.length l) = Some x
  /\ nth_error (l ++ [x; y]) (S (List.length l)) = Some y.
Proof. induction l as [|z l IH]; simpl; [split; reflexivity | exact IH]. Qed.

Lemma replace_nth_app_two {A} (l : list A) (x y z : A) :
  replace_nth (l ++ [x; y]) (S (List.length l)) z = l ++ [x; z].
Proof. induction l as [|w l IH]; simpl; [reflexivity | f_equal; exact IH]. Qed.

Lemma run_cons_some (s s1 : state) (e : event) (es : list event) :
  step s e = Some s1 -> run s (e :: es) = run s1 es.
Proof. simpl. intros ->. reflexivity. Qed.

Lemma step_ClickRecord_enabled (s : state) :
  recordBtn_disabled s = false -> step s ClickRecord = Some (startRecording s).
Proof. simpl. intros ->. reflexivity. Qed.

Lemma step_MicGrant_pending (s : state) (n : nat) :
  gum_pending s = S n ->
  step s MicGrant = Some (startRecording_granted (set_gum_pending n s)).
Proof. simpl. intros ->. reflexivity. Qed.

Lemma step_ClickStop_recording (s : state) (r : nat) :
  stopBtn_disabled s = false -> mediaRecorder s = Some r ->
  nth_error (recorders s) r = Some RecRecording ->
  step s ClickStop
  = Some (set_stopBtn_disabled true (set_recordBtn_disabled false
            (set_recorders (replace_nth (recorders s) r RecStopQueued) s))).
Proof. simpl. intros -> Hm Hr. unfold stopBtn_onclick. rewrite Hm, Hr. reflexivity. Qed.

Lemma stop_updates_keep_mediaRecorder (b b' : bool) (l : list rec_state) (x : state) :
  mediaRecorder (set_stopBtn_disabled b (set_recordBtn_disabled b' (set_recorders l x)))
  = mediaRecorder x.
Proof. reflexivity. Qed.

(** Two clicks on the record button before the permission prompt settles:
    both grants start a recorder, and the stop button stops only the
    second; the first keeps recording. *)
Theorem double_start_leaves_recorder_running (s : state) :
  recordBtn_disabled s = false ->
  exists s', run s [ClickRecord; ClickRecord; MicGrant; MicGrant; ClickStop] = Some s'
    /\ nth_error (recorders s') (List.length (recorders s)) = Some RecRecording
    /\ nth_error (recorders s') (S (List.length (recorders s))) = Some RecStopQueued
    /\ mediaRecorder s' = Some (S (List.length (recorders s))).
Proof.
  intros Hd.
  set (s1 := startRecording (startRecording s)).
  set (s2 := startRecording_granted (set_gum_pending (S (gum_pending s)) s1)).
  set (s3 := startRecording_granted (set_gum_pending (gum_pending s) s2)).
  assert (Hrec3 : recorders s3 = recorders s ++ [RecRecording; RecRecording]).
  { change (recorders s3) with ((recorders s ++ [RecRecording]) ++ [RecRecording]).
    rewrite <- app_assoc. reflexivity. }
  assert (Hm3 : mediaRecorder s3 = Some (S (List.length (recorders s)))).
  { change (mediaRecorder s3) with (Some (List.length (recorders s ++ [RecRecording]))).
    rewrite length_app, Nat.add_1_r. reflexivity. }
  destruct (nth_error_app_two (recorders s) RecRecording RecRecording) as [_ Hn].
  rewrite <- Hrec3 in Hn.
  exists (set_stopBtn_disabled true (set_recordBtn_disabled false
            (set_recorders (replace_nth (recorders s3) (S (List.length (recorders s)))
                              RecStopQueued) s3))).
  split.
  - rewrite (run_cons_some _ (startRecording s)) by (apply step_ClickRecord_enabled; exact Hd).
    rewrite (run_cons_some _ s1) by (apply step_ClickRecord_enabled; exact Hd).
    rewrite (run_cons_some _ s2) by (apply step_MicGrant_pending; reflexivity).
    rewrite (run_cons_some _ s3) by (apply step_MicGrant_pending; reflexivity).
    rewrite (run_cons_some _ _ _ _ (step_ClickStop_recording s3 _ eq_refl Hm3 Hn)).
    reflexivity.
  - change (recorders (set_stopBtn_disabled true (set_recordBtn_disabled false
              (set_recorders (replace_nth (recorders s3) (S (List.length (recorders s)))
                                RecStopQueued) s3))))
      with (replace_nth (recorders s3) (S (List.length (recorders s))) RecStopQueued).
    rewrite Hrec3, replace_nth_app_two.
    destruct (nth_error_app_two (recorders s) RecRecording RecStopQueued) as [H1 H2].
    split; [exact H1 | split; [exact H2|]].
    rewrite stop_updates_keep_mediaRecorder. exact Hm3.
Qed.

Lemma double_start_leaves_recorder_running_witness :
  exists s', run page0 [ClickRecord; ClickRecord; MicGrant; MicGrant; ClickStop] = Some s'
    /\ nth_error (recorders s') 0 = Some RecRecording
    /\ nth_error (recorders s') 1 = Some RecStopQueued
    /\ mediaRecorder s' = Some 1.
Proof. exact (double_start_leaves_recorder_running page0 eq_refl). Defined.

(* ------------------------------------------------------------------ *)
(** ** More on the reply handler *)

(** Whatever the outcome of the request, the spinner is hidden afterwards
    and the status line shows either the ready text or an error. *)
Theorem reply_hides_spinner (o : fetch_outcome) (s : state) :
  spinner_shown (onstop_reply o s) = false
  /\ (statusText (onstop_reply o s) = status_ready
      \/ exists m, statusText (onstop_reply o s) = (status_error_prefix ++ m)%string).
Proof.
  unfold onstop_reply, onstop_fail.
  destruct o as [m|st [m|data]]; simpl; [split; [reflexivity | right; eexists; reflexivity]..|].
  destruct data; simpl;
    try (split; [reflexivity | right; eexists; reflexivity]);
    destruct (_ && _); simpl;
    first [split; [reflexivity | left; reflexivity]
          | split; [reflexivity | right; eexists; reflexivity]].
Qed.

(** Settling a request changes neither the buttons nor the recorders, the
    chunk buffer, the requests sent, the timers or the pending permission
    requests: after a failed turn the page stays as the stop button left
    it. *)
Theorem reply_keeps_controls (o : fetch_outcome) (s : state) :
  recordBtn_disabled (onstop_reply o s) = recordBtn_disabled s
  /\ stopBtn_disabled (onstop_reply o s) = stopBtn_disabled s
  /\ recorders (onstop_reply o s) = recorders s
  /\ mediaRecorder (onstop_reply o s) = mediaRecorder s
  /\ audioChunks (onstop_reply o s) = audioChunks s
  /\ requests (onstop_reply o s) = requests s
  /\ timers (onstop_reply o s) = timers s
  /\ gum_pending (onstop_reply o s) = gum_pending s.
Proof.
  unfold onstop_reply, onstop_fail.
  destruct o as [m|st [m|data]]; simpl; [repeat split..|].
  destruct data; simpl; try (repeat split); destruct (_ && _); repeat split.
Qed.



(* ------------------------------------------------------------------ *)
(** ** More on the session identifier *)

Lemma params_get_app (pre rest : list (string * string)) (k v : string) :
  Session.params_get pre k = None ->
  Session.params_get (pre ++ (k, v) :: rest) k = Some v.
Proof.
  induction pre as [|[k' v'] pre IH]; simpl; intros H.
  - rewrite String.eqb_refl. reflexivity.
  - destruct (String.eqb k' k); [discriminate | exact (IH H)].
Qed.

(** Only the first [session_id] parameter counts: later ones are ignored,
    and an empty first one makes a new identifier be generated (replacing
    the whole query) even when a later one is non-empty. *)
Theorem first_session_param_decides (w : Session.window) (fresh : string)
  (pre rest : list (string * string)) (v : string) :
  Session.params_get pre "session_id" = None ->
  Session.search w = pre ++ ("session_id", v) :: rest ->
  Session.getOrCreateSessionId w fresh
  = if String.eqb v "" then (fresh, Session.pushState w [("session_id", fresh)])
    else (v, w).
Proof.
  intros Hpre Hw. unfold Session.getOrCreateSessionId.
  rewrite Hw, (params_get_app pre rest "session_id" v Hpre). reflexivity.
Qed.

Lemma first_session_param_decides_witness :
  Session.getOrCreateSessionId
    {| Session.search := [("lang", "en"); ("session_id", ""); ("session_id", "abc")];
       Session.history := [] |} "u-1"
  = ("u-1", {| Session.search := [("session_id", "u-1")];
               Session.history := [[("session_id", "u-1")]] |}).
Proof.
  exact (first_session_param_decides
           {| Session.search := [("lang", "en"); ("session_id", ""); ("session_id", "abc")];
              Session.history := [] |} "u-1" [("lang", "en")] [("session_id", "abc")] ""
           eq_refl eq_refl).
Defined.

(* ------------------------------------------------------------------ *)
(** ** Granting the microphone *)

Lemma granted_fields (x : state) :
  mediaRecorder (startRecording_granted x) = Some (List.length (recorders x))
  /\ nth_error (recorders (startRecording_granted x)) (List.length (recorders x))
     = Some RecRecording
  /\ recordBtn_disabled (startRecording_granted x) = true
  /\ stopBtn_disabled (startRecording_granted x) = false
  /\ audioChunks (startRecording_granted x) = []
  /\ player_playing (startRecording_granted x) = false.
Proof.
  split; [reflexivity|]. split; [|repeat split].
  change (recorders (startRecording_granted x)) with (recorders x ++ [RecRecording]).
  rewrite nth_error_app2, Nat.sub_diag by lia. reflexivity.
Qed.

(** A granted capture stops the reply that may be playing, so no ['ended']
    event (and no automatic restart) can follow from it; the chunk buffer
    starts empty and the new recorder, recording, becomes the current one. *)
Theorem grant_cancels_playback (s s' : state) :
  step s MicGrant = Some s' ->
  step s' Ended = None
  /\ audioChunks s' = []
  /\ mediaRecorder s' = Some (List.length (recorders s))
  /\ nth_error (recorders s') (List.length (recorders s)) = Some RecRecording.
Proof.
  intros Hs. simpl in Hs. destruct (gum_pending s) as [|n]; [discriminate|].
  injection Hs as <-.
  destruct (granted_fields (set_gum_pending n s)) as (Hm & Hn & _ & _ & Ha & Hp).
  change (List.length (recorders (set_gum_pending n s))) with (List.length (recorders s)) in Hm, Hn.
  split; [unfold step; rewrite Hp; reflexivity|].
  split; [exact Ha|]. split; [exact Hm | exact Hn].
Qed.

Definition playing_page : state := set_gum_pending 1 (set_player_playing true page0).

Lemma grant_cancels_playback_witness :
  step playing_page MicGrant = Some (startRecording_granted (set_gum_pending 0 playing_page))
  /\ step (startRecording_granted (set_gum_pending 0 playing_page)) Ended = None
  /\ audioChunks (startRecording_granted (set_gum_pending 0 playing_page)) = []
  /\ mediaRecorder (startRecording_granted (set_gum_pending 0 playing_page)) = Some 0
  /\ nth_error (recorders (startRecording_granted (set_gum_pending 0 playing_page))) 0
     = Some RecRecording.
Proof.
  split; [reflexivity|].
  exact (grant_cancels_playback playing_page
           (startRecording_granted (set_gum_pending 0 playing_page)) eq_refl).
Defined.

(* ------------------------------------------------------------------ *)
(** ** The hands-free loop *)

Lemma step_Ended_playing (s : state) :
  player_playing s = true -> step s Ended = Some (on_ended s).
Proof. simpl. intros ->. reflexivity. Qed.

Lemma step_TimerFire_due (x : state) (i due : nat) :
  nth_error (timers x) i = Some due -> Nat.leb due (now x) = true ->
  step x (TimerFire i) = Some (on_restart_timer (set_timers (remove_nth (timers x) i) x)).
Proof. simpl. intros -> ->. reflexivity. Qed.

Lemma on_restart_timer_enabled (x : state) :
  recordBtn_disabled x = false -> on_restart_timer x = startRecording x.
Proof. unfold on_restart_timer. intros ->. reflexivity. Qed.

(** When a reply finishes playing while the record button is enabled, the
    page needs no click to listen again: the end of playback, 500 ms and the
    user's permission lead to a new recorder that records and is the
    current one, with the buttons set for recording. *)
Theorem hands_free_restart (s : state) :
  player_playing s = true -> recordBtn_disabled s = false ->
  exists s', run s [Ended; Advance 500; TimerFire (List.length (timers s)); MicGrant] = Some s'
    /\ mediaRecorder s' = Some (List.length (recorders s))
    /\ nth_error (recorders s') (List.length (recorders s)) = Some RecRecording
    /\ recordBtn_disabled s' = true
    /\ stopBtn_disabled s' = false.
Proof.
  intros Hp Hr.
  rewrite (run_cons_some _ _ _ _ (step_Ended_playing s Hp)).
  rewrite (run_cons_some _ _ _ _
             (eq_refl : step (on_ended s) (Advance 500)
                        = Some (set_now (now (on_ended s) + 500) (on_ended s)))).
  assert (Ht : nth_error (timers (set_now (now (on_ended s) + 500) (on_ended s)))
                 (List.length (timers s)) = Some (now s + 500)).
  { change (timers (set_now (now (on_ended s) + 500) (on_ended s)))
      with (timers s ++ [now s + 500]).
    rewrite nth_error_app2, Nat.sub_diag by lia. reflexivity. }
  assert (Hle : Nat.leb (now s + 500) (now (set_now (now (on_ended s) + 500) (on_ended s)))
                = true).
  { change (now (set_now (now (on_ended s) + 500) (on_ended s))) with (now s + 500).
    apply Nat.leb_refl. }
  rewrite (run_cons_some _ _ _ _ (step_TimerFire_due _ _ _ Ht Hle)).
  match goal with |- context [on_restart_timer ?y] =>
    rewrite (on_restart_timer_enabled y Hr);
    rewrite (run_cons_some _ _ _ _ (step_MicGrant_pending (startRecording y) (gum_pending y) eq_refl));
    destruct (granted_fields (set_gum_pending (gum_pending y) (startRecording y)))
      as (Hm & Hn & Hrb & Hsb & _ & _);
    change (List.length (recorders (set_gum_pending (gum_pending y) (startRecording y))))
      with (List.length (recorders s)) in Hm, Hn
  end.
  eexists. split; [reflexivity|].
  split; [exact Hm|]. split; [exact Hn|]. split; [exact Hrb | exact Hsb].
Qed.

Lemma hands_free_restart_witness :
  exists s', run (set_player_playing true page0) [Ended; Advance 500; TimerFire 0; MicGrant] = Some s'
    /\ mediaRecorder s' = Some 0
    /\ nth_error (recorders s') 0 = Some RecRecording
    /\ recordBtn_disabled s' = true
    /\ stopBtn_disabled s' = false.
Proof. exact (hands_free_restart (set_player_playing true page0) eq_refl eq_refl). Defined.

(* ------------------------------------------------------------------ *)
(** ** One session per page *)

Definition all_requests_to (sid : string) (s : state) : Prop :=
  session_id s = sid
  /\ Forall (fun q => req_url q = (backend_base ++ sid)%string /\ req_method q = "POST")
            (requests s).

Lemma all_requests_to_step (sid : string) (s s' : state) (e : event) :
  all_requests_to sid s -> step s e = Some s' -> all_requests_to sid s'.
Proof.
  unfold all_requests_to. intros [Hid Hq] Hs. destruct e; destruct_step Hs; split_handlers;
    try (split; assumption).
  split; [exact Hid|]. apply Forall_app. split; [exact Hq|].
  constructor; [|constructor]. simpl. rewrite Hid. split; reflexivity.
Qed.

(** The session identifier read on load is never changed: every request the
    page sends is a POST to the chat endpoint of that one session. *)
Theorem requests_use_load_session (sid : string) (rb sb : bool) (st g : string)
  (es : list event) (s : state) :
  run (initial_state sid rb sb st g) es = Some s ->
  session_id s = sid
  /\ Forall (fun q => req_url q = (backend_base ++ sid)%string /\ req_method q = "POST")
            (requests s).
Proof.
  revert s.
  assert (Hgen : forall s0 s, all_requests_to sid s0 -> run s0 es = Some s ->
                              all_requests_to sid s).
  { induction es as [|e es IH]; intros s0 s H Hr; simpl in Hr.
    - injection Hr as <-. exact H.
    - destruct (step s0 e) as [s1|] eqn:E; [|discriminate].
      exact (IH s1 s (all_requests_to_step sid s0 s1 e H E) Hr). }
  intros s Hr. apply (Hgen (initial_state sid rb sb st g) s); [|exact Hr].
  split; [reflexivity | constructor].
Qed.

Lemma requests_use_load_session_witness :
  session_id (run_or page0 two_turns) = "S1"
  /\ Forall (fun q => req_url q = (backend_base ++ "S1")%string /\ req_method q = "POST")
            (requests (run_or page0 two_turns)).
Proof.
  apply (requests_use_load_session "S1" false true "" no_response_yet two_turns).
  vm_compute. reflexivity.
Defined.
